(** * fairseq2_011.models.transformer.frontend

    A shallow embedding of [TransformerFrontend] and
    [TransformerEmbeddingFrontend] (models/transformer/frontend.py).

    - Python [float] is IEEE binary64: Rocq's primitive [float].
    - Python [int] is unbounded: [Z].
    - [raise] is the [Raise] constructor of [result].
    - The torch runtime (tensors, the modules handed to the front-end,
      their factories) is outside the repository's sources: it is the
      interface [Torch], and every statement holds for each of its
      instances.  A module call may read and change state that the
      front-end does not own (the random generator of dropout, the
      incremental state bag of the position encoder): calls thread a
      [World].
    - The constructors that [__init__] delegates to (the layer-norm
      factory, [Dropout]) build a module or raise, and an exception of
      theirs leaves [__init__] as it is. *)

From Stdlib Require Import ZArith List String Ascii DecimalString Bool Lia.
From Stdlib Require Import Floats.
From Stdlib Require DecimalZ DecimalPos.
From ExtLib Require Import Structures.Monad.
Import ListNotations.
Import MonadNotation.

Local Open Scope Z_scope.

(** ** Python built-ins the module relies on *)

Module Py.

Inductive exn : Type :=
| ValueError (msg : string)
| OverflowError (msg : string)
| TypeError (msg : string)
| RuntimeError (msg : string).

Inductive result (A : Type) : Type :=
| Ok (a : A)
| Raise (e : exn).

Arguments Ok {A} a.
Arguments Raise {A} e.

#[export] Instance Monad_result : Monad result := {
  ret := fun A (a : A) => Ok a;
  bind := fun A B (r : result A) (k : A -> result B) =>
    match r with
    | Ok a => k a
    | Raise e => Raise e
    end
}.

(** [str(n)] for an [int], as an f-string field renders it. *)
Definition str (n : Z) : string := NilZero.string_of_int (Z.to_int n).

(** The least magnitude that no longer rounds to a finite binary64:
    [float(n)] raises [OverflowError] from there on. *)
Definition float_overflow_bound : Z := 2 ^ 1024 - 2 ^ 970.

(** [float(n)] where it is finite: round to nearest, ties to even. *)
Definition Z2float (n : Z) : float :=
  SF2Prim (binary_normalize prec emax n 0 false).

Definition float_of_int (n : Z) : result float :=
  if float_overflow_bound <=? Z.abs n
  then Raise (OverflowError "int too large to convert to float")
  else Ok (Z2float n).

(** [math.sqrt(n)] on an [int]: the argument is converted to a float
    first, and a negative one is a domain error. *)
Definition math_sqrt (n : Z) : result float :=
  match float_of_int n with
  | Ok x =>
      if n <? 0 then Raise (ValueError "math domain error")
      else Ok (PrimFloat.sqrt x)
  | Raise e => Raise e
  end.

(** [x != y] and [x > y] on floats (IEEE comparisons: false on NaN for
    [>], true on NaN for [!=]). *)
Definition float_ne (x y : float) : bool := negb (PrimFloat.eqb x y).
Definition float_gt (x y : float) : bool := PrimFloat.ltb y x.
Definition float_le (x y : float) : bool := PrimFloat.leb x y.

End Py.

Import Py.

Local Open Scope monad_scope.

(** ** The torch runtime, as the front-end sees it *)

Class Torch : Type := {
  (** float tensors: embeddings *)
  Tensor : Type;
  (** integer tensors: token indices *)
  IndexTensor : Type;
  (** the incremental state bag (a reference, opaque here) *)
  IncrementalStateBag : Type;
  Device : Type;
  DataType : Type;
  (** everything a module call may read or change *)
  World : Type;
  (** [t.shape] *)
  tensor_shape : Tensor -> list nat;
  (** [seqs.shape] of an index tensor *)
  index_shape : IndexTensor -> list nat;
  (** [t * x] for a Python float [x] *)
  tensor_mul : Tensor -> float -> Tensor
}.

(** A padding mask, batch by position: [true] marks padding. *)
Definition PaddingMask : Type := list (list bool).

Section Modules.

Context {torch : Torch}.

(** A call into a module: its result and the world it leaves. *)
Definition call (A : Type) : Type := World -> A * World.

(** [fairseq2_011.nn.embedding.Embedding] *)
Record Embedding : Type := {
  embedding_dim : Z;
  embedding_forward : IndexTensor -> call Tensor
}.

(** [fairseq2_011.nn.position_encoder.PositionEncoder] *)
Record PositionEncoder : Type := {
  encoding_dim : Z;
  position_encoder_forward :
    Tensor -> option PaddingMask -> option IncrementalStateBag -> call Tensor
}.

(** [fairseq2_011.nn.normalization.LayerNorm] *)
Record LayerNorm : Type := {
  layer_norm_forward : Tensor -> call Tensor
}.

(** [torch.nn.Dropout] *)
Record Dropout : Type := {
  dropout_forward : Tensor -> call Tensor
}.

(** [fairseq2_011.nn.transformer.layer_norm.LayerNormFactory]: a call of
    the factory builds a module or raises. *)
Definition LayerNormFactory : Type :=
  Z -> option Device -> option DataType -> result LayerNorm.

End Modules.

(** The two constructors [__init__] calls and the sources do not hold. *)
Class Factories {torch : Torch} : Type := {
  (** [fairseq2_011.nn.transformer.layer_norm.create_default_layer_norm] *)
  create_default_layer_norm : LayerNormFactory;
  (** [torch.nn.Dropout(p)]: it builds the module or raises (torch
      rejects a [p] outside [0, 1]) *)
  new_Dropout : float -> result Dropout
}.

(** ** fairseq2_011.nn.utils.mask *)

Section Mask.

Context {torch : Torch}.

(** Modelled from the spec: [to_padding_mask], which lives in
    fairseq2_011/nn/utils/mask.py, outside the sources at hand.  The
    spec's words: the mask is derived from the shape of [embeds] and from
    [seq_lens], it is absent if [seq_lens] is absent, and it marks exactly
    the positions beyond each element's specified length.  [seq_lens] is a
    one-dimensional integer tensor: the list of its entries. *)
Definition to_padding_mask (seqs : Tensor) (seq_lens : option (list Z))
  : option PaddingMask :=
  match seq_lens with
  | None => None
  | Some lens =>
      let mask_seq_len := nth 1 (tensor_shape seqs) 0%nat in
      Some (map (fun len =>
                   map (fun j => len <=? Z.of_nat j) (seq 0 mask_seq_len))
                lens)
  end.

End Mask.

(** ** Calls that leave the front-end *)

Section Calls.

Context {torch : Torch}.

(** What [forward] asks of its collaborators, with the arguments it
    passes. *)
Inductive Call : Type :=
| EmbedCall (m : Embedding) (seqs : IndexTensor)
| ToPaddingMaskCall (seqs : Tensor) (seq_lens : option (list Z))
| MulCall (embeds : Tensor) (scale : float)
| PositionEncoderCall (m : PositionEncoder) (embeds : Tensor)
    (padding_mask : option PaddingMask)
    (state_bag : option IncrementalStateBag)
| LayerNormCall (m : LayerNorm) (embeds : Tensor)
| DropoutCall (m : Dropout) (embeds : Tensor).

Definition Answer (c : Call) : Type :=
  match c with
  | ToPaddingMaskCall _ _ => option PaddingMask
  | _ => Tensor
  end.

(** A straight-line program over such calls. *)
Inductive Prog (A : Type) : Type :=
| Ret (a : A)
| Do (c : Call) (k : Answer c -> Prog A).

Arguments Ret {A} a.
Arguments Do {A} c k.

Fixpoint Prog_bind {A B : Type} (p : Prog A) (f : A -> Prog B) : Prog B :=
  match p with
  | Ret a => f a
  | Do c k => Do c (fun x => Prog_bind (k x) f)
  end.

#[export] Instance Monad_Prog : Monad Prog := {
  ret := fun A (a : A) => Ret a;
  bind := fun A B (p : Prog A) (f : A -> Prog B) => Prog_bind p f
}.

Definition perform (c : Call) : Prog (Answer c) := Do c (fun x => Ret x).

(** What each call does: the module's own [forward]; the mask and the
    product are pure. *)
Definition handle (c : Call) : call (Answer c) :=
  match c return call (Answer c) with
  | EmbedCall m seqs => embedding_forward m seqs
  | ToPaddingMaskCall seqs seq_lens =>
      fun w => (to_padding_mask seqs seq_lens, w)
  | MulCall embeds scale => fun w => (tensor_mul embeds scale, w)
  | PositionEncoderCall m embeds padding_mask state_bag =>
      position_encoder_forward m embeds padding_mask state_bag
  | LayerNormCall m embeds => layer_norm_forward m embeds
  | DropoutCall m embeds => dropout_forward m embeds
  end.

Fixpoint run {A : Type} (p : Prog A) (w : World) : A * World :=
  match p with
  | Ret a => (a, w)
  | Do c k => let (x, w') := handle c w in run (k x) w'
  end.

(** One performed call and what it returned. *)
Record Step : Type := { step_call : Call; step_answer : Answer step_call }.

(** The calls a program performs from [w], in the order it performs
    them. *)
Fixpoint trace {A : Type} (p : Prog A) (w : World) : list Step :=
  match p with
  | Ret _ => []
  | Do c k =>
      let (x, w') := handle c w in
      {| step_call := c; step_answer := x |} :: trace (k x) w'
  end.

End Calls.

Arguments Ret {torch A} a.
Arguments Do {torch A} c k.

(** ** class TransformerFrontend *)

Module TransformerFrontend.

Record t : Type := { model_dim : Z }.

Definition __init__ (model_dim : Z) : t := {| model_dim := model_dim |}.

Definition extra_repr (self : t) : string :=
  ("model_dim=" ++ str self.(model_dim))%string.

End TransformerFrontend.

(** ** class TransformerEmbeddingFrontend *)

Module TransformerEmbeddingFrontend.

Section Class_.

Context {torch : Torch} {factories : Factories}.

Record t : Type := {
  super : TransformerFrontend.t;
  embed : Embedding;
  scale : float;
  pos_encoder : option PositionEncoder;
  layer_norm : option LayerNorm;
  dropout : option Dropout
}.

Definition model_dim (self : t) : Z :=
  TransformerFrontend.model_dim self.(super).

Definition dim_mismatch_message (encoding_dim model_dim : Z) : string :=
  ("`encoding_dim` of `pos_encoder` and `embedding_dim` of `embed` must be equal, but are "
   ++ str encoding_dim ++ " and " ++ str model_dim ++ " instead.")%string.

Definition __init__
    (embed : Embedding)
    (pos_encoder : option PositionEncoder)
    (no_scale : bool)
    (layer_norm : bool)
    (dropout_p : float)
    (layer_norm_fn : option LayerNormFactory)
    (device : option Device)
    (dtype : option DataType)
  : result t :=
  let model_dim := embed.(embedding_dim) in
  let super := TransformerFrontend.__init__ model_dim in
  let layer_norm_fn :=
    match layer_norm_fn with
    | None => create_default_layer_norm
    | Some f => f
    end in
  scale <- (if no_scale then ret 1%float else math_sqrt model_dim) ;;
  pos_encoder <-
    match pos_encoder with
    | Some pe =>
        if negb (pe.(encoding_dim) =? model_dim)
        then Raise (ValueError
                      (dim_mismatch_message pe.(encoding_dim) model_dim))
        else ret (Some pe)
    | None => ret None
    end ;;
  layer_norm <-
    (if layer_norm
     then m <- layer_norm_fn model_dim device dtype ;; ret (Some m)
     else ret None) ;;
  dropout <-
    (if float_gt dropout_p 0
     then m <- new_Dropout dropout_p ;; ret (Some m)
     else ret None) ;;
  ret {| super := super;
         embed := embed;
         scale := scale;
         pos_encoder := pos_encoder;
         layer_norm := layer_norm;
         dropout := dropout |}.

Definition forward
    (self : t)
    (seqs : IndexTensor)
    (seq_lens : option (list Z))
    (state_bag : option IncrementalStateBag)
  : Prog (Tensor * option PaddingMask) :=
  embeds <- perform (EmbedCall self.(embed) seqs) ;;
  padding_mask <- perform (ToPaddingMaskCall embeds seq_lens) ;;
  embeds <-
    (if float_ne self.(scale) 1
     then perform (MulCall embeds self.(scale))
     else ret embeds) ;;
  embeds <-
    match self.(pos_encoder) with
    | Some m => perform (PositionEncoderCall m embeds padding_mask state_bag)
    | None => ret embeds
    end ;;
  embeds <-
    match self.(layer_norm) with
    | Some m => perform (LayerNormCall m embeds)
    | None => ret embeds
    end ;;
  embeds <-
    match self.(dropout) with
    | Some m => perform (DropoutCall m embeds)
    | None => ret embeds
    end ;;
  ret (embeds, padding_mask).

Definition extra_repr (self : t) : string :=
  let s := TransformerFrontend.extra_repr self.(super) in
  if float_ne self.(scale) 1 then (s ++ ", no_scale=False")%string
  else ""%string.

End Class_.

End TransformerEmbeddingFrontend.

Import TransformerEmbeddingFrontend.

(** ** Vocabulary of the statements *)

Section Vocabulary.

Context {torch : Torch} {factories : Factories}.

(** A dimensionality [math.sqrt] accepts: not negative, and finite as a
    float. *)
Definition valid_model_dim (d : Z) : Prop := 0 <= d < float_overflow_bound.

(** The factory [__init__] calls: the given one, or the default. *)
Definition chosen_factory (layer_norm_fn : option LayerNormFactory)
  : LayerNormFactory :=
  match layer_norm_fn with
  | None => create_default_layer_norm
  | Some f => f
  end.

(** The layer norm of a construction (the factory is called only when
    [layer_norm] is set) and its dropout ([Dropout] is called only when
    [dropout_p > 0.0]): the submodule, or the exception of the call. *)
Definition build_layer_norm (layer_norm : bool)
    (layer_norm_fn : option LayerNormFactory) (model_dim : Z)
    (device : option Device) (dtype : option DataType)
  : result (option LayerNorm) :=
  if layer_norm
  then m <- chosen_factory layer_norm_fn model_dim device dtype ;;
       ret (Some m)
  else ret None.

Definition build_dropout (dropout_p : float) : result (option Dropout) :=
  if float_gt dropout_p 0
  then m <- new_Dropout dropout_p ;; ret (Some m)
  else ret None.

(** The sequence dimension [S] of a shape [(N, S, ...)]. *)
Definition seq_dim (shape : list nat) : nat := nth 1 shape 0%nat.

(** The stages of the forward pass, each with the submodule it runs. *)
Inductive Stage : Type :=
| EmbeddingLookup (m : Embedding)
| MaskDerivation
| Scaling (scale : float)
| PositionEncoding (m : PositionEncoder)
| Normalization (m : LayerNorm)
| DropoutStage (m : Dropout).

Definition stage_of (c : Call) : Stage :=
  match c with
  | EmbedCall m _ => EmbeddingLookup m
  | ToPaddingMaskCall _ _ => MaskDerivation
  | MulCall _ scale => Scaling scale
  | PositionEncoderCall m _ _ _ => PositionEncoding m
  | LayerNormCall m _ => Normalization m
  | DropoutCall m _ => DropoutStage m
  end.

Definition optional_stage {M : Type} (f : M -> Stage) (m : option M)
  : list Stage :=
  match m with
  | Some x => [f x]
  | None => []
  end.

(** The stages a front-end is configured to run after the lookup and the
    mask, in the order of the claim. *)
Definition configured_stages (self : t) : list Stage :=
  (if float_ne self.(scale) 1 then [Scaling self.(scale)] else [])
  ++ optional_stage PositionEncoding self.(pos_encoder)
  ++ optional_stage Normalization self.(layer_norm)
  ++ optional_stage DropoutStage self.(dropout).

(** The tensor a call takes and the tensor it returns, for the calls that
    transform the embeddings. *)
Definition step_input (s : Step) : option Tensor :=
  match step_call s with
  | EmbedCall _ _ => None
  | ToPaddingMaskCall _ _ => None
  | MulCall embeds _ => Some embeds
  | PositionEncoderCall _ embeds _ _ => Some embeds
  | LayerNormCall _ embeds => Some embeds
  | DropoutCall _ embeds => Some embeds
  end.

Definition step_output (s : Step) : option Tensor :=
  match s with
  | Build_Step c x =>
      match c return Answer c -> option Tensor with
      | ToPaddingMaskCall _ _ => fun _ => None
      | EmbedCall _ _ => fun x => Some x
      | MulCall _ _ => fun x => Some x
      | PositionEncoderCall _ _ _ _ => fun x => Some x
      | LayerNormCall _ _ => fun x => Some x
      | DropoutCall _ _ => fun x => Some x
      end x
  end.

(** [chained t steps out]: the first step takes [t], each later step takes
    what the step before it returned, and [out] is what the last one
    returned ([t] itself when there is no step). *)
Fixpoint chained (t : Tensor) (steps : list Step) (out : Tensor) : Prop :=
  match steps with
  | [] => out = t
  | s :: rest =>
      step_input s = Some t
      /\ exists t', step_output s = Some t' /\ chained t' rest out
  end.

(** The mask and the state bag a position-encoder call was given. *)
Definition position_encoder_args (s : Step)
  : option (option PaddingMask * option IncrementalStateBag) :=
  match step_call s with
  | PositionEncoderCall _ _ padding_mask state_bag =>
      Some (padding_mask, state_bag)
  | _ => None
  end.

(** The variant the spec compares [forward] with: it multiplies by
    [scale] whatever its value. *)
Definition forward_multiply_always
    (self : t)
    (seqs : IndexTensor)
    (seq_lens : option (list Z))
    (state_bag : option IncrementalStateBag)
  : Prog (Tensor * option PaddingMask) :=
  embeds <- perform (EmbedCall self.(embed) seqs) ;;
  padding_mask <- perform (ToPaddingMaskCall embeds seq_lens) ;;
  embeds <- perform (MulCall embeds self.(scale)) ;;
  embeds <-
    match self.(pos_encoder) with
    | Some m => perform (PositionEncoderCall m embeds padding_mask state_bag)
    | None => ret embeds
    end ;;
  embeds <-
    match self.(layer_norm) with
    | Some m => perform (LayerNormCall m embeds)
    | None => ret embeds
    end ;;
  embeds <-
    match self.(dropout) with
    | Some m => perform (DropoutCall m embeds)
    | None => ret embeds
    end ;;
  ret (embeds, padding_mask).

Definition is_mul_call (c : Call) : bool :=
  match c with
  | MulCall _ _ => true
  | _ => false
  end.

(** An optional submodule applied to the embeddings: the module's call
    when it is there, nothing otherwise. *)
Definition apply_optional {M : Type} (f : M -> Tensor -> call Tensor)
    (m : option M) (embeds : Tensor) : call Tensor :=
  match m with
  | Some x => f x embeds
  | None => fun w => (embeds, w)
  end.

End Vocabulary.

(** Names the result and the world of every module call in the goal. *)
Ltac split_calls :=
  repeat (cbn;
    match goal with
    | |- context [let (_, _) := ?c in _] => destruct c
    | |- context [fst ?c] => destruct c
    end).

(** ** A runtime to evaluate on: binary64 tensors *)

Module Float64.

Record tensor : Type := { shape : list nat; data : list float }.

Record index_tensor : Type := { ishape : list nat; idata : list Z }.

Definition mul (t : tensor) (x : float) : tensor :=
  {| shape := shape t; data := map (fun v => (v * x)%float) (data t) |}.

(** The world is the state of the random generator. *)
#[export] Instance torch : Torch := {
  Tensor := tensor;
  IndexTensor := index_tensor;
  IncrementalStateBag := nat;
  Device := unit;
  DataType := unit;
  World := nat;
  tensor_shape := shape;
  index_shape := ishape;
  tensor_mul := mul
}.

(** An embedding table: row [i] of [weight] for token [i]. *)
Definition table (dim : Z) (weight : list (list float)) : Embedding := {|
  embedding_dim := dim;
  embedding_forward := fun seqs w =>
    ({| shape := ishape seqs ++ [Z.to_nat dim];
        data := flat_map (fun i => nth (Z.to_nat i) weight []) (idata seqs) |},
     w)
|}.

(** A position encoder that adds the step of the state bag. *)
Definition shift_encoder (dim : Z) : PositionEncoder := {|
  encoding_dim := dim;
  position_encoder_forward := fun embeds _ state_bag w =>
    let step := match state_bag with Some n => Z.of_nat n | None => 0 end in
    ({| shape := shape embeds;
        data := map (fun v => (v + Z2float step)%float) (data embeds) |}, w)
|}.

(** A normalisation that halves, and a dropout that zeroes the entry the
    generator points at and advances it. *)
Definition halving_norm : LayerNorm := {|
  layer_norm_forward := fun embeds w => (mul embeds 0.5%float, w)
|}.

Fixpoint zero_at (n : nat) (l : list float) : list float :=
  match l, n with
  | [], _ => []
  | _ :: l', O => 0%float :: l'
  | x :: l', S n' => x :: zero_at n' l'
  end.

Definition pointing_dropout (p : float) : Dropout := {|
  dropout_forward := fun embeds w =>
    ({| shape := shape embeds; data := zero_at w (data embeds) |}, S w)
|}.

(** The factories as torch behaves: a tensor of negative size cannot be
    allocated, and [Dropout] takes a probability.  (torch's messages go
    on with the offending value.) *)
#[export] Instance factories : Factories := {
  create_default_layer_norm := fun model_dim _ _ =>
    if model_dim <? 0
    then Raise (RuntimeError
                  "Trying to create tensor with negative dimension")
    else Ok halving_norm;
  new_Dropout := fun p =>
    if (PrimFloat.ltb p 0 || PrimFloat.ltb 1 p)%bool
    then Raise (ValueError
                  "dropout probability has to be between 0 and 1")
    else Ok (pointing_dropout p)
}.

(** Two tokens of dimension two, and a batch of two sequences of three
    tokens. *)
Definition weight : list (list float) :=
  [[1%float; 2%float]; [3%float; 4%float]].

Definition batch : index_tensor :=
  {| ishape := [2; 3]%nat; idata := [0; 1; 1; 1; 0; 0] |}.

Definition embedding : Embedding := table 2 weight.

(** A front-end with every optional submodule and [scale = 1.0]. *)
Definition unscaled : t := {|
  super := TransformerFrontend.__init__ 2;
  embed := embedding;
  scale := 1;
  pos_encoder := Some (shift_encoder 2);
  layer_norm := Some halving_norm;
  dropout := Some (pointing_dropout 0.25)
|}.

End Float64.

(** ** Kinds of calls *)

Section Kinds.

Context {torch : Torch}.

(** Which collaborator a call goes to, whatever its arguments. *)
Inductive CallKind : Type :=
| KEmbed
| KToPaddingMask
| KMul
| KPositionEncoder
| KLayerNorm
| KDropout.

Definition kind_of (c : Call) : CallKind :=
  match c with
  | EmbedCall _ _ => KEmbed
  | ToPaddingMaskCall _ _ => KToPaddingMask
  | MulCall _ _ => KMul
  | PositionEncoderCall _ _ _ _ => KPositionEncoder
  | LayerNormCall _ _ => KLayerNorm
  | DropoutCall _ _ => KDropout
  end.

End Kinds.

(** A table of dimension one, for the binary64 runtime. *)
Definition unit_embedding : Embedding (torch := Float64.torch) :=
  Float64.table 1 [[3%float]; [4%float]].

(** A scaled front-end of the binary64 runtime with no position
    encoder. *)
Definition plain : t (torch := Float64.torch) := {|
  super := TransformerFrontend.__init__ 2;
  embed := Float64.embedding;
  scale := 2;
  pos_encoder := None;
  layer_norm := Some Float64.halving_norm;
  dropout := Some (Float64.pointing_dropout 0.25)
|}.

(** * Properties *)

(** ** binary64 facts the statements rest on *)

Section FloatFacts.

Lemma Prim2SF_inj (x y : float) : Prim2SF x = Prim2SF y -> x = y.
Proof.
  intro H.
  rewrite <- (SF2Prim_Prim2SF x), <- (SF2Prim_Prim2SF y).
  now rewrite H.
Qed.

(** [p <= 0.0] excludes [p > 0.0], NaN included (both are false on it). *)
Lemma float_le_zero_not_gt (p : float) :
  float_le p 0 = true -> float_gt p 0 = false.
Proof.
  unfold float_le, float_gt.
  rewrite leb_spec, ltb_spec.
  change (Prim2SF 0) with (S754_zero false).
  destruct (Prim2SF p) as [s|s| |s m e]; try destruct s;
    unfold SFleb, SFltb, SFcompare; intro H; congruence.
Qed.

(** [x == 1.0] holds of [1.0] alone. *)
Lemma float_eqb_one (x : float) : PrimFloat.eqb x 1 = true -> x = 1%float.
Proof.
  rewrite FloatAxioms.eqb_spec. intro H. apply Prim2SF_inj.
  change (Prim2SF 1) with (S754_finite false 4503599627370496 (-52)) in *.
  destruct (Prim2SF x) as [b|b| |b m e]; try destruct b; try discriminate H.
  unfold SFeqb, SFcompare in H.
  destruct (Z.compare_spec e (-52)) as [He|He|He]; try discriminate H.
  destruct (Pos.compare_cont Eq m 4503599627370496) eqn:Hm;
    try discriminate H.
  apply Pos.compare_eq in Hm. now subst.
Qed.

Lemma float_ne_one_false (x : float) : float_ne x 1 = false -> x = 1%float.
Proof.
  unfold float_ne. intro H. apply float_eqb_one.
  now destruct (PrimFloat.eqb x 1).
Qed.

Lemma digits2_pos_iter_xO (n : nat) (m : positive) :
  Zpos (digits2_pos (Nat.iter n xO m)) = Zpos (digits2_pos m) + Z.of_nat n.
Proof.
  induction n as [|n IH]; [simpl; lia|].
  rewrite Nat.iter_succ. cbn [digits2_pos]. lia.
Qed.

Lemma iter_pos_iter {A : Type} (f : A -> A) (p : positive) (x : A) :
  iter_pos f p x = Nat.iter (Pos.to_nat p) f x.
Proof.
  revert x. induction p as [p IH|p IH|]; intro x; cbn [iter_pos].
  - rewrite !IH, Pos2Nat.inj_xI.
    replace (S (2 * Pos.to_nat p))%nat
      with (Pos.to_nat p + (Pos.to_nat p + 1))%nat by lia.
    now rewrite !Nat.iter_add.
  - rewrite !IH, Pos2Nat.inj_xO.
    replace (2 * Pos.to_nat p)%nat
      with (Pos.to_nat p + Pos.to_nat p)%nat by lia.
    now rewrite Nat.iter_add.
  - reflexivity.
Qed.

(** Shifting right by [n] undoes [n] doublings, with nothing lost. *)
Lemma shr_1_iter_xO (n : nat) (m : positive) :
  Nat.iter n shr_1
    {| shr_m := Zpos (Nat.iter n xO m); shr_r := false; shr_s := false |}
  = {| shr_m := Zpos m; shr_r := false; shr_s := false |}.
Proof.
  induction n as [|n IH]; [reflexivity|].
  rewrite Nat.iter_succ_r, Nat.iter_succ. cbn [shr_1 orb]. exact IH.
Qed.

Lemma mul_pow2_iter (m : positive) (n : nat) :
  (m * Nat.iter n xO 1)%positive = Nat.iter n xO m.
Proof.
  induction n as [|n IH]; [simpl; lia|].
  rewrite !Nat.iter_succ, Pos.mul_xO_r. now rewrite IH.
Qed.

(** Rounding the exact product of a binary64 number with [1.0] (mantissa
    [2^52], exponent [-52]) gives the number back. *)
Lemma round_times_one (sx : bool) (mx : positive) (ex : Z) :
  bounded prec emax mx ex = true ->
  binary_round_aux prec emax sx (Zpos (mx * 4503599627370496)) (ex + -52)
    loc_Exact
  = S754_finite sx mx ex.
Proof.
  unfold bounded, canonical_mantissa. intro H.
  apply andb_true_iff in H. destruct H as [Hc Hb].
  apply Z.eqb_eq in Hc.
  change 4503599627370496%positive with (Nat.iter 52 xO 1%positive).
  rewrite mul_pow2_iter.
  unfold binary_round_aux, shr_fexp.
  cbn [Zdigits2 shr_record_of_loc].
  rewrite digits2_pos_iter_xO.
  replace (Z.pos (digits2_pos mx) + Z.of_nat 52 + (ex + -52))
    with (Z.pos (digits2_pos mx) + ex) by lia.
  rewrite Hc.
  replace (ex - (ex + -52)) with (Zpos 52) by lia.
  cbn [shr]. rewrite iter_pos_iter.
  change (Pos.to_nat 52) with 52%nat.
  rewrite shr_1_iter_xO.
  cbn [shr_m loc_of_shr_record round_nearest_even Zdigits2 shr_record_of_loc].
  replace (ex + -52 + 52) with ex by lia.
  rewrite Hc, Z.sub_diag. cbn [shr shr_m].
  now rewrite Hb.
Qed.

(** [x * 1.0] is [x], for every binary64 [x]. *)
Lemma float_mul_one (x : float) : (x * 1)%float = x.
Proof.
  apply Prim2SF_inj. rewrite mul_spec.
  change (Prim2SF 1) with (S754_finite false 4503599627370496 (-52)).
  pose proof (Prim2SF_valid x) as Hv.
  destruct (Prim2SF x) as [s|s| |s m e]; cbn [SF64mul SFmul];
    rewrite ?xorb_false_r; try reflexivity.
  now apply round_times_one.
Qed.

Lemma float64_mul_one (t : Float64.tensor) : Float64.mul t 1 = t.
Proof.
  destruct t as [sh d]. unfold Float64.mul. cbn. f_equal.
  induction d as [|v d IH]; [reflexivity|].
  cbn. now rewrite float_mul_one, IH.
Qed.

End FloatFacts.

(** ** [math.sqrt] and [str] *)

Section BuiltinFacts.

Lemma math_sqrt_valid (d : Z) :
  valid_model_dim d -> math_sqrt d = Ok (PrimFloat.sqrt (Z2float d)).
Proof.
  unfold valid_model_dim, math_sqrt, float_of_int. intros [Hlo Hhi].
  rewrite Z.abs_eq by exact Hlo.
  destruct (Z.leb_spec float_overflow_bound d) as [H|H]; [lia|].
  destruct (Z.ltb_spec d 0) as [H'|H']; [lia|reflexivity].
Qed.

End BuiltinFacts.

(** ** Running programs *)

Section ProgFacts.

Context {torch : Torch}.

Lemma run_bind {A B : Type} (p : Prog A) (f : A -> Prog B) (w : World) :
  run (bind p f) w = run (f (fst (run p w))) (snd (run p w)).
Proof.
  revert w. induction p as [a|c k IH]; intro w; cbn.
  - reflexivity.
  - destruct (handle c w) as [x w']. apply IH.
Qed.

Lemma trace_bind {A B : Type} (p : Prog A) (f : A -> Prog B) (w : World) :
  trace (bind p f) w
  = trace p w ++ trace (f (fst (run p w))) (snd (run p w)).
Proof.
  revert w. induction p as [a|c k IH]; intro w; cbn.
  - reflexivity.
  - destruct (handle c w) as [x w']. cbn. f_equal. apply IH.
Qed.

Lemma run_perform (c : Call) (w : World) : run (perform c) w = handle c w.
Proof. cbn. now destruct (handle c w). Qed.

Lemma trace_perform (c : Call) (w : World) :
  trace (perform c) w
  = [{| step_call := c; step_answer := fst (handle c w) |}].
Proof. cbn. now destruct (handle c w). Qed.

End ProgFacts.

(** ** Construction *)

Section InitFacts.

Context {torch : Torch} {factories : Factories}.

(** Past [math.sqrt] and the dimension check, [__init__] builds the
    layer norm, then the dropout, then the front-end; an exception of
    either constructor is the exception of [__init__]. *)
Lemma init_after_checks
    (embed : Embedding) (pos_encoder : option PositionEncoder)
    (no_scale layer_norm : bool) (dropout_p : float)
    (layer_norm_fn : option LayerNormFactory)
    (device : option Device) (dtype : option DataType) (s : float) :
  (if no_scale then Ok 1%float else math_sqrt (embedding_dim embed)) = Ok s ->
  (forall m, pos_encoder = Some m -> encoding_dim m = embedding_dim embed) ->
  __init__ embed pos_encoder no_scale layer_norm dropout_p layer_norm_fn
    device dtype
  = (ln <- build_layer_norm layer_norm layer_norm_fn (embedding_dim embed)
             device dtype ;;
     dr <- build_dropout dropout_p ;;
     ret {| super := TransformerFrontend.__init__ (embedding_dim embed);
            embed := embed;
            scale := s;
            pos_encoder := pos_encoder;
            layer_norm := ln;
            dropout := dr |}).
Proof.
  intros Hs Hpe. unfold __init__, build_layer_norm, build_dropout.
  replace (if no_scale then ret 1%float else math_sqrt (embedding_dim embed))
    with (Ok (A := float) s) by (rewrite <- Hs; now destruct no_scale).
  destruct pos_encoder as [m|].
  - rewrite (Hpe m eq_refl), Z.eqb_refl. reflexivity.
  - reflexivity.
Qed.

(** What [__init__] builds when nothing raises. *)
Lemma init_returns
    (embed : Embedding) (pos_encoder : option PositionEncoder)
    (no_scale layer_norm : bool) (dropout_p : float)
    (layer_norm_fn : option LayerNormFactory)
    (device : option Device) (dtype : option DataType) (s : float)
    (ln : option LayerNorm) (dr : option Dropout) :
  (if no_scale then Ok 1%float else math_sqrt (embedding_dim embed)) = Ok s ->
  (forall m, pos_encoder = Some m -> encoding_dim m = embedding_dim embed) ->
  build_layer_norm layer_norm layer_norm_fn (embedding_dim embed)
    device dtype = Ok ln ->
  build_dropout dropout_p = Ok dr ->
  __init__ embed pos_encoder no_scale layer_norm dropout_p layer_norm_fn
    device dtype
  = Ok {| super := TransformerFrontend.__init__ (embedding_dim embed);
          embed := embed;
          scale := s;
          pos_encoder := pos_encoder;
          layer_norm := ln;
          dropout := dr |}.
Proof.
  intros Hs Hpe Hln Hdr.
  rewrite (init_after_checks embed pos_encoder no_scale layer_norm dropout_p
             layer_norm_fn device dtype s Hs Hpe), Hln, Hdr.
  reflexivity.
Qed.

Lemma build_layer_norm_returns
    (layer_norm : bool) (layer_norm_fn : option LayerNormFactory)
    (model_dim : Z) (device : option Device) (dtype : option DataType) :
  (layer_norm = true ->
   exists m, chosen_factory layer_norm_fn model_dim device dtype = Ok m) ->
  exists ln,
    build_layer_norm layer_norm layer_norm_fn model_dim device dtype = Ok ln.
Proof.
  unfold build_layer_norm. destruct layer_norm; [|now eexists].
  intros H. destruct (H eq_refl) as [m Hm]. rewrite Hm. now eexists.
Qed.

Lemma build_dropout_returns (dropout_p : float) :
  (float_gt dropout_p 0 = true -> exists m, new_Dropout dropout_p = Ok m) ->
  exists dr, build_dropout dropout_p = Ok dr.
Proof.
  unfold build_dropout. destruct (float_gt dropout_p 0); [|now eexists].
  intros H. destruct (H eq_refl) as [m Hm]. rewrite Hm. now eexists.
Qed.

Lemma build_layer_norm_raises
    (layer_norm : bool) (layer_norm_fn : option LayerNormFactory)
    (model_dim : Z) (device : option Device) (dtype : option DataType)
    (e : exn) :
  build_layer_norm layer_norm layer_norm_fn model_dim device dtype = Raise e ->
  layer_norm = true
  /\ chosen_factory layer_norm_fn model_dim device dtype = Raise e.
Proof.
  unfold build_layer_norm. destruct layer_norm; [|discriminate].
  destruct (chosen_factory _ _ _ _) as [m|e']; cbn; [discriminate|].
  now intros [= <-].
Qed.

Lemma build_dropout_raises (dropout_p : float) (e : exn) :
  build_dropout dropout_p = Raise e ->
  float_gt dropout_p 0 = true /\ new_Dropout dropout_p = Raise e.
Proof.
  unfold build_dropout. destruct (float_gt dropout_p 0); [|discriminate].
  destruct (new_Dropout dropout_p) as [m|e']; cbn; [discriminate|].
  now intros [= <-].
Qed.

Lemma scale_source_valid (no_scale : bool) (d : Z) :
  no_scale = true \/ valid_model_dim d ->
  (if no_scale then Ok 1%float else math_sqrt d)
  = Ok (if no_scale then 1%float else PrimFloat.sqrt (Z2float d)).
Proof.
  destruct no_scale; [reflexivity|].
  intros [H|H]; [discriminate|]. now apply math_sqrt_valid.
Qed.

(** What a returning [__init__] went through. *)
Lemma init_inversion
    (embed : Embedding) (pos_encoder : option PositionEncoder)
    (no_scale layer_norm : bool) (dropout_p : float)
    (layer_norm_fn : option LayerNormFactory)
    (device : option Device) (dtype : option DataType) (self : t) :
  __init__ embed pos_encoder no_scale layer_norm dropout_p layer_norm_fn
    device dtype = Ok self ->
  exists (s : float) (ln : option LayerNorm) (dr : option Dropout),
    (if no_scale then Ok 1%float else math_sqrt (embedding_dim embed)) = Ok s
    /\ (forall m, pos_encoder = Some m ->
                  encoding_dim m = embedding_dim embed)
    /\ build_layer_norm layer_norm layer_norm_fn (embedding_dim embed)
         device dtype = Ok ln
    /\ build_dropout dropout_p = Ok dr
    /\ self
       = {| super := TransformerFrontend.__init__ (embedding_dim embed);
            TransformerEmbeddingFrontend.embed := embed;
            scale := s;
            TransformerEmbeddingFrontend.pos_encoder := pos_encoder;
            TransformerEmbeddingFrontend.layer_norm := ln;
            dropout := dr |}.
Proof.
  intro H.
  assert (Hs : exists s,
    (if no_scale then Ok 1%float else math_sqrt (embedding_dim embed))
    = Ok s).
  { destruct no_scale; [now eexists|]. unfold __init__ in H. cbn in H.
    destruct (math_sqrt (embedding_dim embed)) as [s|e];
      [now eexists|discriminate H]. }
  destruct Hs as [s Hs].
  assert (Hpe : forall m, pos_encoder = Some m ->
                          encoding_dim m = embedding_dim embed).
  { intros m ->.
    destruct (Z.eqb_spec (encoding_dim m) (embedding_dim embed)) as [E|E];
      [exact E|].
    exfalso. apply Z.eqb_neq in E. unfold __init__ in H. cbn in H.
    destruct no_scale; [|rewrite Hs in H]; cbn in H; rewrite E in H;
      discriminate H. }
  rewrite (init_after_checks embed pos_encoder no_scale layer_norm dropout_p
             layer_norm_fn device dtype s Hs Hpe) in H.
  destruct (build_layer_norm _ _ _ _ _) as [ln|e] eqn:Hln; cbn in H;
    [|discriminate H].
  destruct (build_dropout dropout_p) as [dr|e] eqn:Hdr; cbn in H;
    [|discriminate H].
  injection H as <-. exists s, ln, dr. repeat split; assumption.
Qed.

(** C1.  For a valid model dimension (or with scaling off, where the
    dimension is not looked at), a position encoder whose [encoding_dim]
    differs from the [embedding_dim] of the table makes [__init__] raise
    a [ValueError] whose message holds both numbers, whatever the other
    arguments.  With equal dimensions, or with no position encoder, the
    check lets the construction through: [__init__] returns a front-end
    with that encoder as soon as the constructors it delegates to (the
    layer-norm factory when [layer_norm] is set, [Dropout] when
    [dropout_p > 0.0]) return, and an exception it raises is the
    exception of one of these two calls. *)
Theorem init_checks_encoding_dim
    (embed : Embedding) (no_scale layer_norm : bool) (dropout_p : float)
    (layer_norm_fn : option LayerNormFactory)
    (device : option Device) (dtype : option DataType) :
  no_scale = true \/ valid_model_dim (embedding_dim embed) ->
  (forall pe : PositionEncoder,
      encoding_dim pe <> embedding_dim embed ->
      __init__ embed (Some pe) no_scale layer_norm dropout_p layer_norm_fn
        device dtype
      = Raise (ValueError
          ("`encoding_dim` of `pos_encoder` and `embedding_dim` of `embed` must be equal, but are "
           ++ str (encoding_dim pe) ++ " and " ++ str (embedding_dim embed)
           ++ " instead.")))
  /\ (forall pos_encoder : option PositionEncoder,
      (forall pe, pos_encoder = Some pe ->
                  encoding_dim pe = embedding_dim embed) ->
      ((layer_norm = true ->
        exists m, chosen_factory layer_norm_fn (embedding_dim embed)
                    device dtype = Ok m) ->
       (float_gt dropout_p 0 = true ->
        exists m, new_Dropout dropout_p = Ok m) ->
       exists self,
         __init__ embed pos_encoder no_scale layer_norm dropout_p
           layer_norm_fn device dtype = Ok self
         /\ TransformerEmbeddingFrontend.pos_encoder self = pos_encoder)
      /\ (forall e : exn,
            __init__ embed pos_encoder no_scale layer_norm dropout_p
              layer_norm_fn device dtype = Raise e ->
            (layer_norm = true
             /\ chosen_factory layer_norm_fn (embedding_dim embed)
                  device dtype = Raise e)
            \/ (float_gt dropout_p 0 = true
                /\ new_Dropout dropout_p = Raise e))).
Proof.
  intro Hvalid. apply scale_source_valid in Hvalid.
  split.
  - intros pe Hne. unfold __init__. cbn. rewrite Hvalid.
    apply Z.eqb_neq in Hne. rewrite Hne. reflexivity.
  - intros pos_encoder Hpe. split.
    + intros Hln Hdr.
      apply build_layer_norm_returns in Hln. destruct Hln as [ln Hln].
      apply build_dropout_returns in Hdr. destruct Hdr as [dr Hdr].
      eexists. split.
      * apply init_returns; [exact Hvalid|exact Hpe|exact Hln|exact Hdr].
      * reflexivity.
    + intros e.
      rewrite (init_after_checks embed pos_encoder no_scale layer_norm
                 dropout_p layer_norm_fn device dtype _ Hvalid Hpe).
      destruct (build_layer_norm _ _ _ _ _) as [ln|e1] eqn:Hln; cbn.
      * destruct (build_dropout dropout_p) as [dr|e2] eqn:Hdr; cbn;
          [discriminate|].
        intros [= <-]. right. now apply build_dropout_raises.
      * intros [= <-]. left. now apply build_layer_norm_raises.
Qed.

End InitFacts.

(** ** The forward pass *)

Section ForwardFacts.

Context {torch : Torch} {factories : Factories}.

(** [forward] in state-passing form. *)
Lemma run_forward
    (self : t) (seqs : IndexTensor) (seq_lens : option (list Z))
    (state_bag : option IncrementalStateBag) (w : World) :
  run (forward self seqs seq_lens state_bag) w =
    let (e0, w1) := embedding_forward (embed self) seqs w in
    let mask := to_padding_mask e0 seq_lens in
    let e1 :=
      if float_ne (scale self) 1 then tensor_mul e0 (scale self) else e0 in
    let (e2, w2) :=
      apply_optional
        (fun m e => position_encoder_forward m e mask state_bag)
        (pos_encoder self) e1 w1 in
    let (e3, w3) :=
      apply_optional layer_norm_forward (layer_norm self) e2 w2 in
    let (e4, w4) := apply_optional dropout_forward (dropout self) e3 w3 in
    ((e4, mask), w4).
Proof.
  destruct self as [sup emb sc pe ln dr]. unfold forward. cbn.
  destruct (embedding_forward emb seqs w) as [e0 w1].
  destruct (float_ne sc 1), pe, ln, dr; split_calls; reflexivity.
Qed.

Lemma run_forward_multiply_always
    (self : t) (seqs : IndexTensor) (seq_lens : option (list Z))
    (state_bag : option IncrementalStateBag) (w : World) :
  run (forward_multiply_always self seqs seq_lens state_bag) w =
    let (e0, w1) := embedding_forward (embed self) seqs w in
    let mask := to_padding_mask e0 seq_lens in
    let e1 := tensor_mul e0 (scale self) in
    let (e2, w2) :=
      apply_optional
        (fun m e => position_encoder_forward m e mask state_bag)
        (pos_encoder self) e1 w1 in
    let (e3, w3) :=
      apply_optional layer_norm_forward (layer_norm self) e2 w2 in
    let (e4, w4) := apply_optional dropout_forward (dropout self) e3 w3 in
    ((e4, mask), w4).
Proof.
  destruct self as [sup emb sc pe ln dr]. unfold forward_multiply_always.
  cbn.
  destruct (embedding_forward emb seqs w) as [e0 w1].
  destruct pe, ln, dr; split_calls; reflexivity.
Qed.

(** C2.  From any world, [forward] performs the embedding lookup, then
    the mask derivation, then exactly the configured stages in the order
    scale, position encoder, layer norm, dropout, and nothing else.  The
    stages are chained: each takes the tensor the one before it returned,
    so an omitted stage hands the tensor on untouched, and the returned
    tensor is what the last performed stage returned.  The returned mask
    is the derived one, and it is the mask the position encoder is given,
    together with the caller's state bag. *)
Theorem forward_stage_order
    (self : t) (seqs : IndexTensor) (seq_lens : option (list Z))
    (state_bag : option IncrementalStateBag) (w : World) :
  let steps := trace (forward self seqs seq_lens state_bag) w in
  let out := fst (run (forward self seqs seq_lens state_bag) w) in
  map (fun s => stage_of (step_call s)) steps
  = EmbeddingLookup (embed self) :: MaskDerivation :: configured_stages self
  /\ exists (e0 : Tensor) (mask : option PaddingMask) (rest : list Step),
      steps = {| step_call := EmbedCall (embed self) seqs;
                 step_answer := e0 |}
              :: {| step_call := ToPaddingMaskCall e0 seq_lens;
                    step_answer := mask |}
              :: rest
      /\ chained e0 rest (fst out)
      /\ snd out = mask
      /\ (forall s, In s rest ->
          forall a, position_encoder_args s = Some a ->
                    a = (mask, state_bag)).
Proof.
  destruct self as [sup emb sc pe ln dr]. unfold forward, configured_stages.
  cbn.
  destruct (embedding_forward emb seqs w) as [e0 w1].
  destruct (float_ne sc 1), pe, ln, dr; split_calls.
  all: split; [reflexivity|].
  all: do 3 eexists; split; [reflexivity|].
  all: split; [cbn; repeat first [reflexivity | split | eexists]|].
  all: split; [reflexivity|].
  all: intros s Hin a Ha; cbn in Hin;
    repeat (destruct Hin as [<-|Hin]; [cbn in Ha; congruence|]);
    contradiction.
Qed.

(** C3.  With [no_scale=True], no position encoder, no layer norm and
    [dropout_p=0.0], construction returns a front-end whose [forward]
    yields the embedding lookup of [seqs] itself, and leaves the world
    the lookup left. *)
Theorem forward_unscaled_is_lookup
    (embed : Embedding) (layer_norm_fn : option LayerNormFactory)
    (device : option Device) (dtype : option DataType) :
  exists self,
    __init__ embed None true false 0 layer_norm_fn device dtype = Ok self
    /\ forall (seqs : IndexTensor) (seq_lens : option (list Z))
              (state_bag : option IncrementalStateBag) (w : World),
        fst (fst (run (forward self seqs seq_lens state_bag) w))
        = fst (embedding_forward embed seqs w)
        /\ snd (run (forward self seqs seq_lens state_bag) w)
           = snd (embedding_forward embed seqs w).
Proof.
  eexists. split.
  - apply init_returns; [reflexivity|discriminate|reflexivity|reflexivity].
  - intros seqs seq_lens state_bag w. rewrite run_forward. cbn.
    change (float_gt 0 0) with false. change (float_ne 1 1) with false.
    cbn. now destruct (embedding_forward embed seqs w).
Qed.

(** C4.  With [no_scale=False] and the same trivial configuration, for a
    valid model dimension and a runtime whose product with [1.0] is the
    tensor itself, construction returns a front-end whose [scale] is the
    square root of the model dimension, fixed there, and whose [forward]
    yields the lookup multiplied by it. *)
Theorem forward_scaled_is_lookup_times_sqrt
    (embed : Embedding) (layer_norm_fn : option LayerNormFactory)
    (device : option Device) (dtype : option DataType) :
  valid_model_dim (embedding_dim embed) ->
  (forall x : Tensor, tensor_mul x 1 = x) ->
  exists self,
    __init__ embed None false false 0 layer_norm_fn device dtype = Ok self
    /\ scale self = PrimFloat.sqrt (Z2float (embedding_dim embed))
    /\ forall (seqs : IndexTensor) (seq_lens : option (list Z))
              (state_bag : option IncrementalStateBag) (w : World),
        fst (fst (run (forward self seqs seq_lens state_bag) w))
        = tensor_mul (fst (embedding_forward embed seqs w))
            (PrimFloat.sqrt (Z2float (embedding_dim embed))).
Proof.
  intros Hvalid Hone. eexists. split; [|split].
  - apply init_returns;
      [now apply math_sqrt_valid|discriminate|reflexivity|reflexivity].
  - reflexivity.
  - intros seqs seq_lens state_bag w. rewrite run_forward. cbn.
    change (float_gt 0 0) with false. cbn.
    destruct (embedding_forward embed seqs w) as [e0 w1]. cbn.
    destruct (float_ne (PrimFloat.sqrt (Z2float (embedding_dim embed))) 1)
      eqn:Hne; [reflexivity|].
    apply float_ne_one_false in Hne. rewrite Hne. now rewrite Hone.
Qed.

(** C5.  Whatever the configuration and the input, [forward] called with
    [seq_lens=None] returns no padding mask. *)
Theorem forward_no_seq_lens_no_mask
    (self : t) (seqs : IndexTensor)
    (state_bag : option IncrementalStateBag) (w : World) :
  snd (fst (run (forward self seqs None state_bag) w)) = None.
Proof.
  rewrite run_forward.
  destruct (embedding_forward (embed self) seqs w) as [e0 w1]. cbn.
  destruct (apply_optional _ (pos_encoder self) _ w1) as [e2 w2].
  destruct (apply_optional _ (layer_norm self) e2 w2) as [e3 w3].
  now destruct (apply_optional _ (dropout self) e3 w3).
Qed.

End ForwardFacts.

(** ** The padding mask *)

Section MaskFacts.

Context {torch : Torch} {factories : Factories}.

Lemma nth_map_seq {A : Type} (f : nat -> A) (n j : nat) (d : A) :
  (j < n)%nat -> nth j (map f (seq 0 n)) d = f j.
Proof.
  intro Hj.
  rewrite (nth_indep _ d (f 0%nat)) by now rewrite length_map, length_seq.
  rewrite map_nth, seq_nth by exact Hj. reflexivity.
Qed.

(** The derived mask has one row for each entry of [seq_lens]; the row
    has the sequence length of [seqs] and is [true] from the entry on. *)
Lemma to_padding_mask_rows (seqs : Tensor) (lens : list Z) :
  exists mask,
    to_padding_mask seqs (Some lens) = Some mask
    /\ List.length mask = List.length lens
    /\ forall (i : nat) (len : Z),
        nth_error lens i = Some len ->
        exists row,
          nth_error mask i = Some row
          /\ List.length row = seq_dim (tensor_shape seqs)
          /\ forall j, (j < seq_dim (tensor_shape seqs))%nat ->
                       (nth j row false = true <-> len <= Z.of_nat j).
Proof.
  eexists. split; [reflexivity|]. split; [apply length_map|].
  intros i len Hi. eexists. split; [|split].
  - rewrite nth_error_map, Hi. reflexivity.
  - now rewrite length_map, length_seq.
  - intros j Hj. unfold seq_dim in Hj.
    rewrite nth_map_seq by exact Hj. apply Z.leb_le.
Qed.

Lemma forward_mask
    (self : t) (seqs : IndexTensor) (seq_lens : option (list Z))
    (state_bag : option IncrementalStateBag) (w : World) :
  snd (fst (run (forward self seqs seq_lens state_bag) w))
  = to_padding_mask (fst (embedding_forward (embed self) seqs w)) seq_lens.
Proof.
  rewrite run_forward.
  destruct (embedding_forward (embed self) seqs w) as [e0 w1]. cbn.
  destruct (apply_optional _ (pos_encoder self) _ w1) as [e2 w2].
  destruct (apply_optional _ (layer_norm self) e2 w2) as [e3 w3].
  now destruct (apply_optional _ (dropout self) e3 w3).
Qed.

(** C6.  When the lookup keeps the sequence dimension of [seqs] and some
    entry of [seq_lens] is shorter than it, [forward] returns a mask with
    one row per entry, each as long as the sequence dimension, in which
    position [j] of row [i] is marked exactly when [seq_lens[i] <= j]. *)
Theorem forward_mask_marks_padding
    (self : t) (seqs : IndexTensor) (lens : list Z)
    (state_bag : option IncrementalStateBag) (w : World) :
  seq_dim (tensor_shape (fst (embedding_forward (embed self) seqs w)))
  = seq_dim (index_shape seqs) ->
  (exists (i : nat) (len : Z),
      nth_error lens i = Some len
      /\ len < Z.of_nat (seq_dim (index_shape seqs))) ->
  exists mask,
    snd (fst (run (forward self seqs (Some lens) state_bag) w)) = Some mask
    /\ List.length mask = List.length lens
    /\ forall (i : nat) (len : Z),
        nth_error lens i = Some len ->
        exists row,
          nth_error mask i = Some row
          /\ List.length row = seq_dim (index_shape seqs)
          /\ forall j, (j < seq_dim (index_shape seqs))%nat ->
                       (nth j row false = true <-> len <= Z.of_nat j).
Proof.
  intros Hshape _. rewrite forward_mask, <- Hshape.
  apply to_padding_mask_rows.
Qed.

End MaskFacts.

(** ** Skipping the product with [1.0] *)

Section ScaleFacts.

Context {torch : Torch} {factories : Factories}.

(** C7.  When [scale != 1.0] is false, [forward] performs no product at
    all, and on a runtime whose product with [1.0] is the tensor itself
    it returns what the variant that always multiplies returns, and
    leaves the same world. *)
Theorem forward_skips_unit_scale
    (self : t) (seqs : IndexTensor) (seq_lens : option (list Z))
    (state_bag : option IncrementalStateBag) (w : World) :
  float_ne (scale self) 1 = false ->
  (forall x : Tensor, tensor_mul x 1 = x) ->
  forallb (fun s => negb (is_mul_call (step_call s)))
    (trace (forward self seqs seq_lens state_bag) w) = true
  /\ run (forward self seqs seq_lens state_bag) w
     = run (forward_multiply_always self seqs seq_lens state_bag) w.
Proof.
  intros Hne Hone. split.
  - destruct self as [sup emb sc pe ln dr]. cbn in Hne.
    unfold forward. cbn. rewrite Hne.
    destruct (embedding_forward emb seqs w) as [e0 w1].
    destruct pe, ln, dr; split_calls; reflexivity.
  - rewrite run_forward, run_forward_multiply_always, Hne.
    apply float_ne_one_false in Hne. rewrite Hne.
    destruct (embedding_forward (embed self) seqs w) as [e0 w1].
    now rewrite Hone.
Qed.

End ScaleFacts.

(** ** [extra_repr] *)

Section ReprFacts.

Context {torch : Torch} {factories : Factories}.

Lemma init_no_scale_scale
    (embed : Embedding) (pos_encoder : option PositionEncoder)
    (layer_norm : bool) (dropout_p : float)
    (layer_norm_fn : option LayerNormFactory)
    (device : option Device) (dtype : option DataType) (self : t) :
  __init__ embed pos_encoder true layer_norm dropout_p layer_norm_fn
    device dtype = Ok self ->
  scale self = 1%float.
Proof.
  intro H. apply init_inversion in H.
  destruct H as (s & ln & dr & Hs & _ & _ & _ & ->).
  cbn. now injection Hs.
Qed.

(** C8.  [extra_repr] is the base representation followed by
    [", no_scale=False"] when [scale != 1.0], and it ends with that
    annotation in no other case. *)
Theorem extra_repr_annotates_scaled (self : t) :
  (float_ne (scale self) 1 = true ->
   extra_repr self
   = (TransformerFrontend.extra_repr (super self) ++ ", no_scale=False")%string)
  /\ ((exists s : string, extra_repr self = (s ++ ", no_scale=False")%string)
      <-> float_ne (scale self) 1 = true).
Proof.
  unfold extra_repr. destruct (float_ne (scale self) 1).
  - split; [reflexivity|]. split; [reflexivity|]. intros _. now eexists.
  - split; [discriminate|]. split; [|discriminate].
    intros [[|a s] H]; discriminate H.
Qed.

(** C9.  When [scale != 1.0] is false, and so for every front-end built
    with [no_scale=True], [extra_repr] is the empty string: the
    [model_dim=...] text of the base class is part of it only when
    [scale != 1.0]. *)
Theorem extra_repr_unscaled_empty :
  (forall self : t, float_ne (scale self) 1 = false ->
                    extra_repr self = ""%string)
  /\ (forall (embed : Embedding) (pos_encoder : option PositionEncoder)
             (layer_norm : bool) (dropout_p : float)
             (layer_norm_fn : option LayerNormFactory)
             (device : option Device) (dtype : option DataType) (self : t),
        __init__ embed pos_encoder true layer_norm dropout_p layer_norm_fn
          device dtype = Ok self ->
        extra_repr self = ""%string)
  /\ (forall self : t,
        (exists rest : string,
            extra_repr self
            = (TransformerFrontend.extra_repr (super self) ++ rest)%string)
        <-> float_ne (scale self) 1 = true).
Proof.
  split; [|split].
  - intros self H. unfold extra_repr. now rewrite H.
  - intros embed pe ln p fn dev dt self H.
    apply init_no_scale_scale in H. unfold extra_repr. now rewrite H.
  - intro self. unfold extra_repr. destruct (float_ne (scale self) 1).
    + split; [reflexivity|]. intros _. now eexists.
    + split; [|discriminate]. intros [rest H]. discriminate H.
Qed.

End ReprFacts.

(** ** [dropout_p] *)

Section DropoutFacts.

Context {torch : Torch} {factories : Factories}.

(** C10.  A [dropout_p <= 0.0], negative ones included, is accepted as
    it is: [__init__] does with it what it does with [0.0], a front-end
    it returns has no dropout submodule, and it does return one whenever
    the scale, the dimension check and, with [layer_norm] set, the
    layer-norm factory allow it ([Dropout] is not called). *)
Theorem init_nonpositive_dropout_omitted
    (embed : Embedding) (pos_encoder : option PositionEncoder)
    (no_scale layer_norm : bool) (dropout_p : float)
    (layer_norm_fn : option LayerNormFactory)
    (device : option Device) (dtype : option DataType) :
  float_le dropout_p 0 = true ->
  __init__ embed pos_encoder no_scale layer_norm dropout_p layer_norm_fn
    device dtype
  = __init__ embed pos_encoder no_scale layer_norm 0 layer_norm_fn
      device dtype
  /\ (forall self,
        __init__ embed pos_encoder no_scale layer_norm dropout_p
          layer_norm_fn device dtype = Ok self ->
        dropout self = None)
  /\ (no_scale = true \/ valid_model_dim (embedding_dim embed) ->
      (forall m, pos_encoder = Some m ->
                 encoding_dim m = embedding_dim embed) ->
      (layer_norm = true ->
       exists m, chosen_factory layer_norm_fn (embedding_dim embed)
                   device dtype = Ok m) ->
      exists self,
        __init__ embed pos_encoder no_scale layer_norm dropout_p
          layer_norm_fn device dtype = Ok self
        /\ dropout self = None).
Proof.
  intro Hle. apply float_le_zero_not_gt in Hle.
  assert (Hdr : build_dropout dropout_p = Ok None).
  { unfold build_dropout. now rewrite Hle. }
  split; [|split].
  - unfold __init__. rewrite Hle.
    change (float_gt 0 0) with false. reflexivity.
  - intros self H. apply init_inversion in H.
    destruct H as (s & ln & dr & _ & _ & _ & Hdr' & ->).
    rewrite Hdr in Hdr'. now injection Hdr' as <-.
  - intros Hvalid Hpe Hln. apply scale_source_valid in Hvalid.
    apply build_layer_norm_returns in Hln. destruct Hln as [ln Hln].
    eexists. split.
    + apply init_returns; [exact Hvalid|exact Hpe|exact Hln|exact Hdr].
    + reflexivity.
Qed.

End DropoutFacts.

(** ** Evaluation on binary64 tensors *)

Section Evaluation.

Import Float64.

(** The full pipeline on the batch: lookup, mask, position encoding with
    the state bag at step [1], halving, dropout of entry [0]. *)
Example unscaled_forward_runs :
  run (forward unscaled batch (Some [3; 1]) (Some 1%nat)) 0%nat
  = ({| shape := [2; 3; 2]%nat;
        data := [0; 1.5; 2; 2.5; 2; 2.5; 2; 2.5; 1; 1.5; 1; 1.5]%float |},
     Some [[false; false; false]; [false; true; true]],
     1%nat).
Proof. reflexivity. Qed.

Example scaled_init_repr :
  match __init__ embedding None false false 0 None None None with
  | Ok self => extra_repr self
  | Raise _ => "raised"%string
  end = "model_dim=2, no_scale=False"%string.
Proof. reflexivity. Qed.

Example negative_dim_raises :
  __init__ (table (-1) weight) None false false 0 None None None
  = Raise (ValueError "math domain error").
Proof. reflexivity. Qed.

Example dropout_above_one_raises :
  __init__ embedding None true false 1.5%float None None None
  = Raise (ValueError "dropout probability has to be between 0 and 1").
Proof. reflexivity. Qed.

Example layer_norm_negative_dim_raises :
  __init__ (table (-1) weight) None true true 0 None None None
  = Raise (RuntimeError "Trying to create tensor with negative dimension").
Proof. reflexivity. Qed.

Lemma init_checks_encoding_dim_witness :
  __init__ embedding (Some (shift_encoder 3)) false true 0.25%float
    None None None
  = Raise (ValueError
      "`encoding_dim` of `pos_encoder` and `embedding_dim` of `embed` must be equal, but are 3 and 2 instead.")
  /\ exists self,
      __init__ embedding (Some (shift_encoder 2)) false true 0.25%float
        None None None = Ok self
      /\ pos_encoder self = Some (shift_encoder 2).
Proof.
  assert (Hvalid : valid_model_dim (embedding_dim embedding)).
  { unfold valid_model_dim. cbn. split; [lia|reflexivity]. }
  destruct (init_checks_encoding_dim embedding false true 0.25%float
              None None None (or_intror Hvalid)) as [Hraise Hreturn].
  split.
  - apply (Hraise (shift_encoder 3)). cbn. lia.
  - apply (Hreturn (Some (shift_encoder 2))).
    + intros pe [= <-]. reflexivity.
    + intros _. eexists. reflexivity.
    + intros _. eexists. reflexivity.
Defined.

Lemma forward_scaled_is_lookup_times_sqrt_witness :
  valid_model_dim 2
  /\ exists self,
      __init__ embedding None false false 0 None None None = Ok self
      /\ scale self = PrimFloat.sqrt (Z2float 2)
      /\ forall seqs seq_lens state_bag w,
          fst (fst (run (forward self seqs seq_lens state_bag) w))
          = mul (fst (embedding_forward embedding seqs w))
              (PrimFloat.sqrt (Z2float 2)).
Proof.
  assert (Hvalid : valid_model_dim 2).
  { unfold valid_model_dim. split; [lia|reflexivity]. }
  split; [exact Hvalid|].
  exact (forward_scaled_is_lookup_times_sqrt embedding None None None
           Hvalid float64_mul_one).
Defined.

Lemma forward_mask_marks_padding_witness :
  exists mask,
    snd (fst (run (forward unscaled batch (Some [3; 1]) None) 0%nat))
    = Some mask
    /\ List.length mask = 2%nat
    /\ forall (i : nat) (len : Z),
        nth_error [3; 1] i = Some len ->
        exists row,
          nth_error mask i = Some row
          /\ List.length row = 3%nat
          /\ forall j, (j < 3)%nat ->
                       (nth j row false = true <-> len <= Z.of_nat j).
Proof.
  apply (forward_mask_marks_padding unscaled batch [3; 1] None 0%nat).
  - reflexivity.
  - exists 1%nat, 1. split; [reflexivity|]. cbn. lia.
Defined.

Lemma forward_skips_unit_scale_witness :
  float_ne (scale unscaled) 1 = false
  /\ run (forward unscaled batch (Some [3; 1]) (Some 1%nat)) 0%nat
     = run (forward_multiply_always unscaled batch (Some [3; 1])
              (Some 1%nat)) 0%nat.
Proof.
  split; [reflexivity|].
  apply (forward_skips_unit_scale unscaled batch (Some [3; 1])
           (Some 1%nat) 0%nat); [reflexivity|exact float64_mul_one].
Defined.

Lemma init_nonpositive_dropout_omitted_witness :
  float_le (-0.5)%float 0 = true
  /\ exists self,
      __init__ embedding (Some (shift_encoder 2)) false true (-0.5)%float
        None None None = Ok self
      /\ dropout self = None.
Proof.
  split; [reflexivity|].
  apply (init_nonpositive_dropout_omitted embedding
           (Some (shift_encoder 2)) false true (-0.5)%float None None None).
  - reflexivity.
  - right. unfold valid_model_dim. cbn. split; [lia|reflexivity].
  - intros m [= <-]. reflexivity.
  - intros _. eexists. reflexivity.
Defined.

End Evaluation.

(** * Further properties of the front-end *)

(** ** More on binary64 comparisons *)

Section FloatOrderFacts.

Lemma SFeqb_refl_not_nan (s : spec_float) :
  SFeqb s s = false -> s = S754_nan.
Proof.
  destruct s as [b|b| |b m e]; unfold SFeqb, SFcompare;
    try destruct b; try discriminate; try reflexivity.
  all: rewrite Z.compare_refl, Pos.compare_cont_refl; discriminate.
Qed.

(** [p > 0.0] fails exactly on [p <= 0.0] and on NaN. *)
Lemma float_not_gt_zero (p : float) :
  float_gt p 0 = false <-> float_le p 0 = true \/ PrimFloat.is_nan p = true.
Proof.
  unfold float_gt, float_le, PrimFloat.is_nan.
  rewrite leb_spec, ltb_spec, FloatAxioms.eqb_spec.
  change (Prim2SF 0) with (S754_zero false).
  destruct (Prim2SF p) as [b|b| |b m e]; try destruct b;
    unfold SFleb, SFltb; cbn [SFcompare];
    (split; [intro H|intros [H|H]]);
    try reflexivity; try discriminate H;
    try (now left); try (now right);
    apply negb_true_iff, SFeqb_refl_not_nan in H; discriminate H.
Qed.

End FloatOrderFacts.

(** ** What [__init__] establishes and what it rejects *)

Section InitMore.

Context {torch : Torch} {factories : Factories}.

(** X1.  A front-end that [__init__] returns has the table it was given,
    the table's [embedding_dim] as its [model_dim], the position encoder
    it was given, and that encoder's [encoding_dim] is the [model_dim]. *)
Theorem init_establishes_dimensions
    (embed : Embedding) (pos_encoder : option PositionEncoder)
    (no_scale layer_norm : bool) (dropout_p : float)
    (layer_norm_fn : option LayerNormFactory)
    (device : option Device) (dtype : option DataType) (self : t) :
  __init__ embed pos_encoder no_scale layer_norm dropout_p layer_norm_fn
    device dtype = Ok self ->
  model_dim self = embedding_dim embed
  /\ TransformerEmbeddingFrontend.embed self = embed
  /\ TransformerEmbeddingFrontend.pos_encoder self = pos_encoder
  /\ (forall m, TransformerEmbeddingFrontend.pos_encoder self = Some m ->
                encoding_dim m = model_dim self).
Proof.
  intro H. apply init_inversion in H.
  destruct H as (s & ln & dr & _ & Hpe & _ & _ & ->).
  cbn. repeat split. exact Hpe.
Qed.

Lemma math_sqrt_negative (d : Z) :
  d < 0 -> exists e, math_sqrt d = Raise e.
Proof.
  intro Hd. unfold math_sqrt.
  destruct (float_of_int d) as [x|e]; [|now exists e].
  destruct (Z.ltb_spec d 0); [now eexists|lia].
Qed.

(** X2.  A negative [embedding_dim] is rejected by [math.sqrt], before
    the position encoder is looked at: with [no_scale=False] every
    construction from that table raises [math.sqrt]'s own error, whatever
    the other arguments.  Nothing else looks at the sign of the
    dimension: with [no_scale=True], no position encoder, no layer norm
    and no dropout the same table is accepted. *)
Theorem init_negative_dim_sqrt_error_first (embed : Embedding) :
  embedding_dim embed < 0 ->
  exists e,
    math_sqrt (embedding_dim embed) = Raise e
    /\ (forall pos_encoder layer_norm dropout_p layer_norm_fn device dtype,
          __init__ embed pos_encoder false layer_norm dropout_p
            layer_norm_fn device dtype = Raise e)
    /\ (forall dropout_p layer_norm_fn device dtype,
          float_gt dropout_p 0 = false ->
          exists self,
            __init__ embed None true false dropout_p layer_norm_fn
              device dtype = Ok self).
Proof.
  intro Hd. destruct (math_sqrt_negative _ Hd) as [e He].
  exists e. split; [exact He|]. split.
  - intros. unfold __init__. cbn. now rewrite He.
  - intros dropout_p layer_norm_fn device dtype Hp. eexists.
    apply init_returns; [reflexivity|discriminate|reflexivity|].
    unfold build_dropout. rewrite Hp. reflexivity.
Qed.

(** X3.  The errors of [math.sqrt] and of the dimension check come first
    and do not depend on the submodules asked for: an exception raised
    by the construction with no layer norm and no dropout is raised by
    every construction from the same table, position encoder and
    [no_scale], whatever [layer_norm], [dropout_p], [layer_norm_fn],
    [device] and [dtype]. *)
Theorem init_check_errors_precede_submodules
    (embed : Embedding) (pos_encoder : option PositionEncoder)
    (no_scale : bool) (e : exn) :
  __init__ embed pos_encoder no_scale false 0 None None None = Raise e ->
  forall (layer_norm : bool) (dropout_p : float)
         (layer_norm_fn : option LayerNormFactory)
         (device : option Device) (dtype : option DataType),
    __init__ embed pos_encoder no_scale layer_norm dropout_p layer_norm_fn
      device dtype = Raise e.
Proof.
  intros H layer_norm dropout_p layer_norm_fn device dtype.
  destruct (if no_scale then Ok 1%float
            else math_sqrt (embedding_dim embed)) as [s|e'] eqn:Hs.
  - destruct pos_encoder as [m|].
    + destruct (Z.eqb_spec (encoding_dim m) (embedding_dim embed))
        as [E|E].
      * rewrite (init_returns embed (Some m) no_scale false 0 None None
                   None s None None Hs) in H;
          [discriminate H| |reflexivity|reflexivity].
        now intros m' [= <-].
      * apply Z.eqb_neq in E. revert H. unfold __init__. cbn.
        destruct no_scale; [|rewrite Hs]; cbn; rewrite E; cbn;
          now intros [= <-].
    + rewrite (init_returns embed None no_scale false 0 None None
                 None s None None Hs) in H;
        [discriminate H|discriminate|reflexivity|reflexivity].
  - destruct no_scale; [discriminate Hs|].
    revert H. unfold __init__. cbn. rewrite Hs. cbn. now intros [= <-].
Qed.

(** X4.  In a front-end that [__init__] returns, the dropout submodule is
    missing exactly when [dropout_p <= 0.0] or [dropout_p] is NaN;
    otherwise it is the module that [Dropout(dropout_p)] returned. *)
Theorem init_dropout_presence
    (embed : Embedding) (pos_encoder : option PositionEncoder)
    (no_scale layer_norm : bool) (dropout_p : float)
    (layer_norm_fn : option LayerNormFactory)
    (device : option Device) (dtype : option DataType) (self : t) :
  __init__ embed pos_encoder no_scale layer_norm dropout_p layer_norm_fn
    device dtype = Ok self ->
  (dropout self = None
   <-> float_le dropout_p 0 = true \/ PrimFloat.is_nan dropout_p = true)
  /\ (dropout self = None
      \/ exists m, new_Dropout dropout_p = Ok m /\ dropout self = Some m).
Proof.
  intro H. rewrite <- float_not_gt_zero.
  apply init_inversion in H.
  destruct H as (s & ln & dr & _ & _ & _ & Hdr & ->). cbn [dropout].
  unfold build_dropout in Hdr. destruct (float_gt dropout_p 0).
  - destruct (new_Dropout dropout_p) as [m|e]; cbn in Hdr;
      [|discriminate Hdr].
    injection Hdr as <-. cbn.
    split; [split; discriminate|right; now exists m].
  - injection Hdr as <-. cbn. split; [split; reflexivity|now left].
Qed.

(** X7.  For a table of [embedding_dim] one the square root is [1.0]:
    [no_scale=False] builds what [no_scale=True] builds. *)
Theorem init_unit_dim_same_as_no_scale
    (embed : Embedding) (pos_encoder : option PositionEncoder)
    (layer_norm : bool) (dropout_p : float)
    (layer_norm_fn : option LayerNormFactory)
    (device : option Device) (dtype : option DataType) :
  embedding_dim embed = 1 ->
  __init__ embed pos_encoder false layer_norm dropout_p layer_norm_fn
    device dtype
  = __init__ embed pos_encoder true layer_norm dropout_p layer_norm_fn
      device dtype.
Proof.
  intro H. unfold __init__. rewrite H.
  change (math_sqrt 1) with (Ok 1%float). reflexivity.
Qed.

End InitMore.

(** ** More on the forward pass *)

Section ForwardMore.

Context {torch : Torch} {factories : Factories}.

(** X5.  Without a position encoder neither [seq_lens] nor [state_bag]
    reaches the embeddings: the tensor [forward] returns and the world it
    leaves are the same for every choice of the two. *)
Theorem forward_without_encoder_ignores_lengths
    (self : t) (seqs : IndexTensor) (seq_lens seq_lens' : option (list Z))
    (state_bag state_bag' : option IncrementalStateBag) (w : World) :
  pos_encoder self = None ->
  fst (fst (run (forward self seqs seq_lens state_bag) w))
  = fst (fst (run (forward self seqs seq_lens' state_bag') w))
  /\ snd (run (forward self seqs seq_lens state_bag) w)
     = snd (run (forward self seqs seq_lens' state_bag') w).
Proof.
  intro Hpe. rewrite !run_forward, Hpe.
  destruct (embedding_forward (embed self) seqs w) as [e0 w1]. cbn.
  destruct (apply_optional _ (layer_norm self) _ w1) as [e3 w3].
  destruct (apply_optional _ (dropout self) e3 w3) as [e4 w4].
  now split.
Qed.

(** X6.  [forward] changes the world through its submodules only: a
    property of the world that the table and every configured submodule
    keep is kept by [forward]. *)
Theorem forward_keeps_world_invariant
    (P : World -> Prop) (self : t) :
  (forall seqs w, P w -> P (snd (embedding_forward (embed self) seqs w))) ->
  (forall m, pos_encoder self = Some m ->
     forall embeds mask state_bag w,
       P w -> P (snd (position_encoder_forward m embeds mask state_bag w))) ->
  (forall m, layer_norm self = Some m ->
     forall embeds w, P w -> P (snd (layer_norm_forward m embeds w))) ->
  (forall m, dropout self = Some m ->
     forall embeds w, P w -> P (snd (dropout_forward m embeds w))) ->
  forall seqs seq_lens state_bag w,
    P w -> P (snd (run (forward self seqs seq_lens state_bag) w)).
Proof.
  intros Hembed Hpe Hln Hdr seqs seq_lens state_bag w Hw.
  rewrite run_forward.
  specialize (Hembed seqs w Hw).
  destruct (embedding_forward (embed self) seqs w) as [e0 w1].
  cbn in Hembed.
  set (e1 := if float_ne (scale self) 1 then _ else _).
  assert (H2 : P (snd (apply_optional
                         (fun m e =>
                            position_encoder_forward m e
                              (to_padding_mask e0 seq_lens) state_bag)
                         (pos_encoder self) e1 w1))).
  { destruct (pos_encoder self) as [m|]; cbn; [|exact Hembed].
    now apply (Hpe m eq_refl). }
  cbv zeta.
  destruct (apply_optional _ (pos_encoder self) e1 w1) as [e2 w2].
  cbn in H2.
  assert (H3 : P (snd (apply_optional layer_norm_forward
                         (layer_norm self) e2 w2))).
  { destruct (layer_norm self) as [m|]; cbn; [|exact H2].
    now apply (Hln m eq_refl). }
  destruct (apply_optional _ (layer_norm self) e2 w2) as [e3 w3].
  cbn in H3.
  assert (H4 : P (snd (apply_optional dropout_forward
                         (dropout self) e3 w3))).
  { destruct (dropout self) as [m|]; cbn; [|exact H3].
    now apply (Hdr m eq_refl). }
  now destruct (apply_optional _ (dropout self) e3 w3) as [e4 w4].
Qed.

(** The stages of a run, read off the front-end. *)
Lemma forward_stages
    (self : t) (seqs : IndexTensor) (seq_lens : option (list Z))
    (state_bag : option IncrementalStateBag) (w : World) :
  map (fun s => stage_of (step_call s))
    (trace (forward self seqs seq_lens state_bag) w)
  = EmbeddingLookup (embed self) :: MaskDerivation :: configured_stages self.
Proof.
  destruct self as [sup emb sc pe ln dr]. unfold forward, configured_stages.
  cbn.
  destruct (embedding_forward emb seqs w) as [e0 w1].
  destruct (float_ne sc 1), pe, ln, dr; split_calls; reflexivity.
Qed.

(** X9.  One call of [forward] goes to each collaborator at most once:
    the kinds of the calls it performs are pairwise distinct, and there
    are between two and six calls. *)
Theorem forward_calls_each_collaborator_once
    (self : t) (seqs : IndexTensor) (seq_lens : option (list Z))
    (state_bag : option IncrementalStateBag) (w : World) :
  let steps := trace (forward self seqs seq_lens state_bag) w in
  NoDup (map (fun s => kind_of (step_call s)) steps)
  /\ (2 <= List.length steps <= 6)%nat.
Proof.
  destruct self as [sup emb sc pe ln dr]. unfold forward. cbn.
  destruct (embedding_forward emb seqs w) as [e0 w1].
  destruct (float_ne sc 1), pe, ln, dr; split_calls.
  all: split; [|cbn; lia].
  all: repeat (constructor; [cbn; intuition discriminate|]);
    constructor.
Qed.

(** X10.  Construction and the forward pass compose as the arguments
    say: on a front-end that [__init__] returned, [forward] looks up in
    the given table, derives the mask, multiplies by the scale unless it
    is [1.0], runs the given position encoder, then the layer norm that
    the factory (the default one when none is given) returned for the
    table's dimension, the device and the data type, then the module
    that [Dropout(dropout_p)] returned when [dropout_p > 0.0]. *)
Theorem forward_after_init_stages
    (embed : Embedding) (pos_encoder : option PositionEncoder)
    (no_scale layer_norm : bool) (dropout_p : float)
    (layer_norm_fn : option LayerNormFactory)
    (device : option Device) (dtype : option DataType) (self : t)
    (seqs : IndexTensor) (seq_lens : option (list Z))
    (state_bag : option IncrementalStateBag) (w : World) :
  __init__ embed pos_encoder no_scale layer_norm dropout_p layer_norm_fn
    device dtype = Ok self ->
  exists (ln : option LayerNorm) (dr : option Dropout),
    build_layer_norm layer_norm layer_norm_fn (embedding_dim embed)
      device dtype = Ok ln
    /\ build_dropout dropout_p = Ok dr
    /\ map (fun s => stage_of (step_call s))
         (trace (forward self seqs seq_lens state_bag) w)
       = EmbeddingLookup embed :: MaskDerivation
         :: (if float_ne (scale self) 1 then [Scaling (scale self)] else [])
         ++ optional_stage PositionEncoding pos_encoder
         ++ optional_stage Normalization ln
         ++ optional_stage DropoutStage dr
    /\ (no_scale = true -> scale self = 1%float)
    /\ (no_scale = false ->
        math_sqrt (embedding_dim embed) = Ok (scale self)).
Proof.
  intro H. apply init_inversion in H.
  destruct H as (s & ln & dr & Hs & _ & Hln & Hdr & ->).
  exists ln, dr. split; [exact Hln|]. split; [exact Hdr|].
  rewrite forward_stages. unfold configured_stages. cbn.
  split; [reflexivity|]. split.
  - intros ->. now injection Hs.
  - intros ->. exact Hs.
Qed.

End ForwardMore.

(** ** More on [extra_repr] *)

Section ReprMore.

Context {torch : Torch} {factories : Factories}.

Lemma str_inj (a b : Z) : str a = str b -> a = b.
Proof.
  unfold str. intro H. apply DecimalZ.to_int_inj.
  assert (Hnil : forall z, Z.to_int z <> Decimal.Pos Decimal.Nil
                           /\ Z.to_int z <> Decimal.Neg Decimal.Nil).
  { intros [|p|p]; cbn; split; try discriminate; intros [= Hp];
      now apply (DecimalPos.Unsigned.to_uint_nonnil p). }
  destruct (Hnil a) as [Ha Ha'], (Hnil b) as [Hb Hb'].
  pose proof (NilZero.isi _ Ha Ha') as Ea.
  pose proof (NilZero.isi _ Hb Hb') as Eb.
  rewrite H in Ea. rewrite Ea in Eb. now injection Eb.
Qed.

Lemma length_append (x y : string) :
  String.length (x ++ y) = (String.length x + String.length y)%nat.
Proof. induction x as [|c x IH]; cbn; [reflexivity|now rewrite IH]. Qed.

Lemma append_cancel_r (x y s : string) :
  (x ++ s = y ++ s)%string -> x = y.
Proof.
  revert y. induction x as [|c x IH]; intros [|d y] H; cbn in H.
  - reflexivity.
  - apply (f_equal String.length) in H. cbn in H.
    rewrite length_append in H. lia.
  - apply (f_equal String.length) in H. cbn in H.
    rewrite length_append in H. lia.
  - injection H as -> H. f_equal. now apply IH.
Qed.

(** X8.  The representations keep the model dimension apart: the base
    class's [extra_repr] differs for front-ends of different [model_dim],
    and so does that of two scaled embedding front-ends. *)
Theorem extra_repr_determines_model_dim :
  (forall a b : TransformerFrontend.t,
      TransformerFrontend.extra_repr a = TransformerFrontend.extra_repr b ->
      TransformerFrontend.model_dim a = TransformerFrontend.model_dim b)
  /\ (forall self other : t,
        float_ne (scale self) 1 = true ->
        float_ne (scale other) 1 = true ->
        extra_repr self = extra_repr other ->
        model_dim self = model_dim other).
Proof.
  assert (Hbase : forall a b : TransformerFrontend.t,
    TransformerFrontend.extra_repr a = TransformerFrontend.extra_repr b ->
    TransformerFrontend.model_dim a = TransformerFrontend.model_dim b).
  { intros a b H. unfold TransformerFrontend.extra_repr in H.
    cbn in H. injection H as H. now apply str_inj. }
  split; [exact Hbase|].
  intros self other Hs Ho H. unfold extra_repr in H.
  rewrite Hs, Ho in H. apply append_cancel_r in H.
  unfold model_dim. now apply Hbase.
Qed.

End ReprMore.

(** ** Further evaluation on binary64 tensors *)

Section EvaluationMore.

Import Float64.

Lemma init_establishes_dimensions_witness :
  exists self,
    __init__ embedding (Some (shift_encoder 2)) false true 0.25%float
      None None None = Ok self
    /\ model_dim self = 2
    /\ forall m, pos_encoder self = Some m -> encoding_dim m = model_dim self.
Proof.
  assert (H : exists self,
    __init__ embedding (Some (shift_encoder 2)) false true 0.25%float
      None None None = Ok self) by (eexists; reflexivity).
  destruct H as [self H]. exists self. split; [exact H|].
  destruct (init_establishes_dimensions embedding (Some (shift_encoder 2))
              false true 0.25%float None None None self H)
    as [H1 [_ [_ H4]]].
  split; assumption.
Defined.

Lemma init_check_errors_precede_submodules_witness :
  exists e,
    __init__ embedding (Some (shift_encoder 3)) true false 0 None None None
    = Raise e
    /\ __init__ embedding (Some (shift_encoder 3)) true true 1.5%float
         None None None = Raise e.
Proof.
  assert (H : exists e,
    __init__ embedding (Some (shift_encoder 3)) true false 0 None None None
    = Raise e) by (eexists; reflexivity).
  destruct H as [e H]. exists e. split; [exact H|].
  exact (init_check_errors_precede_submodules embedding
           (Some (shift_encoder 3)) true e H true 1.5%float None None None).
Defined.

Lemma init_negative_dim_sqrt_error_first_witness :
  embedding_dim (table (-1) weight) < 0
  /\ exists e,
      forall pos_encoder layer_norm dropout_p layer_norm_fn device dtype,
        __init__ (table (-1) weight) pos_encoder false layer_norm dropout_p
          layer_norm_fn device dtype = Raise e.
Proof.
  assert (Hneg : embedding_dim (table (-1) weight) < 0) by (cbn; lia).
  split; [exact Hneg|].
  destruct (init_negative_dim_sqrt_error_first (table (-1) weight) Hneg)
    as [e [_ [H _]]].
  exists e. exact H.
Defined.

Lemma init_dropout_presence_witness :
  exists self,
    __init__ embedding None true false nan None None None = Ok self
    /\ (dropout self = None
        <-> float_le nan 0 = true \/ PrimFloat.is_nan nan = true).
Proof.
  assert (H : exists self,
    __init__ embedding None true false nan None None None = Ok self)
    by (eexists; reflexivity).
  destruct H as [self H]. exists self. split; [exact H|].
  exact (proj1 (init_dropout_presence embedding None true false nan
                  None None None self H)).
Defined.

Lemma forward_without_encoder_ignores_lengths_witness :
  pos_encoder plain = None
  /\ fst (fst (run (forward plain batch (Some [3; 1]) (Some 1%nat)) 0%nat))
     = fst (fst (run (forward plain batch None None) 0%nat)).
Proof.
  split; [reflexivity|].
  exact (proj1 (forward_without_encoder_ignores_lengths plain batch
                  (Some [3; 1]) None (Some 1%nat) None 0%nat eq_refl)).
Defined.

Lemma forward_keeps_world_invariant_witness :
  (3 <= snd (run (forward unscaled batch (Some [3; 1]%Z) None) 3%nat))%nat.
Proof.
  apply (forward_keeps_world_invariant (torch := torch)
           (fun w : nat => (3 <= w)%nat) unscaled).
  - intros seqs w Hw. exact Hw.
  - intros m [= <-] embeds mask state_bag w Hw. exact Hw.
  - intros m [= <-] embeds w Hw. exact Hw.
  - intros m [= <-] embeds w Hw. cbn. lia.
  - lia.
Defined.

Lemma init_unit_dim_same_as_no_scale_witness :
  __init__ unit_embedding None false false 0 None None None
  = __init__ unit_embedding None true false 0 None None None.
Proof.
  apply (init_unit_dim_same_as_no_scale unit_embedding None false 0
           None None None).
  reflexivity.
Defined.

Lemma forward_after_init_stages_witness :
  exists self,
    __init__ embedding (Some (shift_encoder 2)) true true 0.25%float
      None None None = Ok self
    /\ map (fun s => stage_of (step_call s))
         (trace (forward self batch None None) 0%nat)
       = [EmbeddingLookup embedding; MaskDerivation;
          PositionEncoding (shift_encoder 2);
          Normalization halving_norm;
          DropoutStage (pointing_dropout 0.25)].
Proof.
  assert (H : exists self,
    __init__ embedding (Some (shift_encoder 2)) true true 0.25%float
      None None None = Ok self) by (eexists; reflexivity).
  destruct H as [self H]. exists self. split; [exact H|].
  destruct (forward_after_init_stages embedding (Some (shift_encoder 2))
              true true 0.25%float None None None self batch None None
              0%nat H)
    as (ln & dr & Hln & Hdr & Hstages & Hscale & _).
  injection Hln as <-. injection Hdr as <-.
  rewrite (Hscale eq_refl) in Hstages. exact Hstages.
Defined.

End EvaluationMore.
